(** * The database-backed authentication provider of the Argilla server

    A shallow embedding of
    [src/argilla/server/security/auth_provider/db/provider.py]:
    [DBAuthProvider.get_current_user], [DBAuthProvider.fetch_token_user],
    [DBAuthProvider._create_access_token] and the login route
    [login_for_access_token].

    The provider is a thin layer over three collaborators that are not part
    of that file: the account queries of [argilla.server.contexts.accounts],
    the JWT codec of the python-jose library ([jose.jwt]) and the clock
    ([datetime.utcnow]).  The clock is an explicit argument [now]; the
    database is an explicit, read-only state [db]; the raised exceptions are
    the [Raise] results of the type [Raises]. *)

From stdpp Require Import base strings list gmap.
From Stdlib Require Import ZArith Lia.

Local Open Scope string_scope.
Local Open Scope Z_scope.
Set Default Proof Using "Type".

(** ** Python values *)

(** The outcome of a call that either returns or raises. *)
Inductive Raises (E A : Type) : Type :=
| Return (a : A)
| Raise (e : E).
Arguments Return {E A} a.
Arguments Raise {E A} e.

(** [bool(s)] for a [str]: only the empty string is falsy. *)
Definition str_truthy (s : string) : bool :=
  match s with
  | EmptyString => false
  | String _ _ => true
  end.

(** A [datetime] is the number of microseconds since the epoch (UTC), a
    [timedelta] a number of microseconds. *)
Abbreviation datetime := Z (only parsing).
Abbreviation timedelta := Z (only parsing).

(** [timedelta(minutes=m)], when it is in the range of a [timedelta]
    ([timedelta_in_range]); outside it the constructor raises
    [OverflowError], which this arithmetic does not show. *)
Definition timedelta_minutes (m : Z) : timedelta := m * 60000000.

(** [bool(d)] for a [timedelta]: only the zero duration is falsy. *)
Definition timedelta_truthy (d : timedelta) : bool := negb (d =? 0).

(** [calendar.timegm(dt.utctimetuple())]: the whole seconds of an instant;
    the microseconds are dropped. *)
Definition timegm (dt : datetime) : Z := dt / 1000000.

(** The ranges of the standard library: a [timedelta] has at most
    999999999 days in either direction ([timedelta.min], [timedelta.max]),
    a [datetime] lies in the years 1 to 9999 ([datetime.min],
    [datetime.max]).  Building a [timedelta] or adding one to a [datetime]
    outside these ranges raises [OverflowError]. *)
Definition timedelta_in_range (d : timedelta) : bool :=
  (-86399999913600000000 <=? d) && (d <=? 86399999999999999999).

Definition datetime_in_range (dt : datetime) : bool :=
  (-62135596800000000 <=? dt) && (dt <=? 253402300799999999).

(** The values a claim set holds: before encoding a [str], an [int] or a
    [datetime]; in a decoded token a string or an integer. *)
Inductive PyValue : Type :=
| PyStr (s : string)
| PyInt (n : Z)
| PyDatetime (dt : Z).

#[global] Instance PyValue_eq_dec : EqDecision PyValue.
Proof. solve_decision. Defined.

(** A claim set is a [dict] with string keys. *)
Abbreviation Claims := (gmap string PyValue) (only parsing).

(** ** Users and settings *)

(** The columns of [argilla.server.models.User] the provider depends on. *)
Record User : Type := mkUser {
  username : string;
  api_key : string;
  password_hash : string
}.

(** The fields of [Settings] that [provider.py] reads. *)
Record Settings : Type := mkSettings {
  secret_key : string;
  algorithm : string;
  token_expiration_in_minutes : Z
}.

(** [argilla.server.errors.UnauthorizedError()]: raised without arguments,
    so every occurrence carries the same payload. *)
Inductive UnauthorizedError : Type := Unauthorized.

(** ** The token codec (python-jose) *)

(** A compact JWS is the serialisation of a header, a claim set and a
    signature.  The serialisation is injective, so a token that parses is
    represented by its three parts; [NotJWS raw] is any other string. *)
Record JWS : Type := mkJWS {
  jws_alg : string;
  jws_claims : gmap string PyValue;
  jws_signature : string
}.

Inductive TokenStr : Type :=
| Compact (j : JWS)
| NotJWS (raw : string).

(** [bool(token)]: a compact JWS has two dots, so it is never empty. *)
Definition token_truthy (t : TokenStr) : bool :=
  match t with
  | Compact _ => true
  | NotJWS raw => str_truthy raw
  end.

(** Why [jose.jws.verify] raised [JWSError]. *)
Inductive JWSError : Type :=
| NotEnoughSegments
| AlgNotAllowed
| SignatureVerificationFailed.

(** The [JWTError]s of [jose.jwt.decode], named as the specification names
    them: [InvalidSignature] is the [JWTError] that wraps a [JWSError] of
    [jws.verify], [Expired] is [ExpiredSignatureError], [InvalidClaims] is
    [JWTClaimsError].  All are subclasses of [JWTError]. *)
Inductive JWTError : Type :=
| InvalidSignature (why : JWSError)
| Expired
| InvalidClaims.

(** [jwt.encode] first replaces a [datetime] under a time claim by its
    [timegm]. *)
Definition to_int_date (v : PyValue) : PyValue :=
  match v with
  | PyDatetime dt => PyInt (timegm dt)
  | _ => v
  end.

(** The loop of [jwt.encode] over the time claims exp, iat and nbf. *)
Definition int_dates (claims : gmap string PyValue) : gmap string PyValue :=
  alter to_int_date "nbf" (alter to_int_date "iat" (alter to_int_date "exp" claims)).

(** [security.model.Token]. *)
Record Token : Type := mkToken { access_token : TokenStr }.

(** ** The credential store *)

(** Modelled from the spec: [argilla.server.contexts.accounts] is not under
    src/.  The Credential Store persists user records (username, password
    hash, API key) and exposes lookup by username, lookup by API key and
    password verification.  The database state is the list of its user
    rows. *)
Definition get_user_by_username (db : list User) (name : string) : option User :=
  find (fun u => bool_decide (username u = name)) db.

(** Modelled from the spec: lookup by API key of the Credential Store
    ([accounts.get_user_by_api_key], not under src/). *)
Definition get_user_by_api_key (db : list User) (key : string) : option User :=
  find (fun u => bool_decide (api_key u = key)) db.

(** The condition under which login computes its expiration without an
    [OverflowError]: [now] is an instant of the clock,
    [timedelta(minutes=token_expiration_in_minutes)] is a [timedelta], and
    [datetime.utcnow() + expires_delta] is a [datetime].  (With 0 minutes
    the sum is not computed, and it is [now].)  The definitions of the
    provider below describe the run under this condition. *)
Definition expiration_in_range (settings : Settings) (now : datetime) : bool :=
  timedelta_in_range (timedelta_minutes (token_expiration_in_minutes settings))
  && datetime_in_range now
  && datetime_in_range (now + timedelta_minutes (token_expiration_in_minutes settings)).





(** Whether a request carries a credential: the truthiness the provider
    tests on an optional header value. *)
Definition carries_api_key (api_key : option string) : bool :=
  match api_key with
  | Some key => str_truthy key
  | None => false
  end.

Definition carries_token (token : option TokenStr) : bool :=
  match token with
  | Some t => token_truthy t
  | None => false
  end.

(** ** The dataset handlers

    [src/argilla/server/apis/v1/handlers/datasets.py].  The handlers are
    glue over the [datasets] context, the policies and [authorize], none of
    which is under src/; these are the fields of [DatasetsContext].  A
    handler runs on the state behind the [db] session (and the search
    engine) and leaves a new state and a result. *)

(** What a handler raises: the [ForbiddenError] of [authorize], an
    [HTTPException] of its own, or a [ValueError] of the context that it
    does not catch. *)
Inductive HandlerError : Type :=
| ForbiddenError
| HTTPException (status_code : Z) (detail : string)
| ValueError (message : string).

(** The answers with which a handler turns a request down itself: the
    [ForbiddenError] and its own 404 and 409. *)
Definition is_refusal (e : HandlerError) : bool :=
  match e with
  | ForbiddenError => true
  | HTTPException status_code _ => (status_code =? 404) || (status_code =? 409)
  | ValueError _ => false
  end.

Definition HTTP_404_NOT_FOUND : Z := 404.
Definition HTTP_409_CONFLICT : Z := 409.
Definition HTTP_422_UNPROCESSABLE_ENTITY : Z := 422.

(** The response models [Records] and [Metrics]; the models [Datasets],
    [Fields] and [Questions] only wrap a list of items and are represented
    by that list. *)
Record Records (RecordDict : Type) : Type := mkRecords {
  records_items : list RecordDict;
  records_total : Z
}.
Arguments mkRecords {RecordDict} _ _.
Arguments records_items {RecordDict} _.
Arguments records_total {RecordDict} _.

Record Metrics : Type := mkMetrics {
  metrics_records_count : Z;
  metrics_responses_count : Z;
  metrics_responses_submitted : Z;
  metrics_responses_discarded : Z
}.

(** The collaborators of the handlers.  A UUID is its canonical string (it
    is only passed on and interpolated).  Queries read the state; the
    operations that write return the new state and may raise a
    [ValueError] with a message.  [is_authorized] is the decision of
    [authorize]: the Authorization Policy decides allow or deny for an
    identity and an action. *)
Record DatasetsContext : Type := mkDatasetsContext {
  State : Type;
  CurrentUser : Type;
  Dataset : Type;
  Field : Type;
  Question : Type;
  Rec : Type;
  RecordDict : Type;
  RecordInclude : Type;
  DatasetCreate : Type;
  FieldCreate : Type;
  QuestionCreate : Type;
  RecordsCreate : Type;
  PolicyAction : Type;
  (* security.model.User *)
  user_id : CurrentUser -> string;
  user_is_admin : CurrentUser -> bool;
  user_datasets : State -> CurrentUser -> list Dataset;
  (* attributes of the models and schemas *)
  dataset_fields : State -> Dataset -> list Field;
  dataset_questions : State -> Dataset -> list Question;
  record_dict : Rec -> RecordDict;
  dataset_create_name : DatasetCreate -> string;
  dataset_create_workspace_id : DatasetCreate -> string;
  field_create_name : FieldCreate -> string;
  question_create_name : QuestionCreate -> string;
  (* policies *)
  is_authorized : CurrentUser -> PolicyAction -> bool;
  DatasetPolicyV1_list : PolicyAction;
  DatasetPolicyV1_get : Dataset -> PolicyAction;
  DatasetPolicyV1_create : PolicyAction;
  DatasetPolicyV1_create_field : PolicyAction;
  DatasetPolicyV1_create_question : PolicyAction;
  DatasetPolicyV1_create_records : PolicyAction;
  DatasetPolicyV1_publish : PolicyAction;
  DatasetPolicyV1_delete : PolicyAction;
  (* queries of the datasets context *)
  get_dataset_by_id : State -> string -> option Dataset;
  list_datasets : State -> list Dataset;
  get_dataset_by_name_and_workspace_id : State -> string -> string -> option Dataset;
  get_field_by_name_and_dataset_id : State -> string -> string -> option Field;
  get_question_by_name_and_dataset_id : State -> string -> string -> option Question;
  list_records_by_dataset_id_and_user_id :
    State -> string -> string -> list RecordInclude -> Z -> Z -> list Rec;
  count_records_by_dataset_id : State -> string -> Z;
  count_responses_by_dataset_id_and_user_id : State -> string -> string -> Z;
  count_submitted_responses_by_dataset_id_and_user_id : State -> string -> string -> Z;
  count_discarded_responses_by_dataset_id_and_user_id : State -> string -> string -> Z;
  (* operations of the datasets context *)
  datasets_create_dataset : State -> DatasetCreate -> State * Raises string Dataset;
  datasets_create_field : State -> Dataset -> FieldCreate -> State * Raises string Field;
  datasets_create_question :
    State -> Dataset -> QuestionCreate -> State * Raises string Question;
  datasets_create_records :
    State -> Dataset -> CurrentUser -> RecordsCreate -> State * Raises string unit;
  datasets_publish_dataset : State -> Dataset -> State * Raises string Dataset;
  datasets_delete_dataset : State -> Dataset -> State * Raises string unit
}.

(** A handler: from the state to the new state and what it returns or
    raises. *)
Definition Handler (c : DatasetsContext) (A : Type) : Type :=
  State c -> State c * Raises HandlerError A.

Definition hret {c : DatasetsContext} {A : Type} (a : A) : Handler c A :=
  fun st => (st, Return a).

Definition hraise {c : DatasetsContext} {A : Type} (e : HandlerError) : Handler c A :=
  fun st => (st, Raise e).

Definition hbind {c : DatasetsContext} {A B : Type} (m : Handler c A)
  (k : A -> Handler c B) : Handler c B :=
  fun st =>
    match m st with
    | (st', Return a) => k a st'
    | (st', Raise e) => (st', Raise e)
    end.

Notation "'let!' x ':=' m 'in' k" := (hbind m (fun x => k))
  (at level 10, x pattern, m at level 100, k at level 200).

(** A query of the context. *)
Definition query {c : DatasetsContext} {A : Type} (f : State c -> A) : Handler c A :=
  fun st => (st, Return (f st)).

(** An operation of the context; its [ValueError] propagates. *)
Definition operation {c : DatasetsContext} {A : Type}
  (f : State c -> State c * Raises string A) : Handler c A :=
  fun st =>
    match f st with
    | (st', Return a) => (st', Return a)
    | (st', Raise message) => (st', Raise (ValueError message))
    end.

(** [try: ... except ValueError as err: raise HTTPException(422, str(err))]. *)
Definition except_ValueError {c : DatasetsContext} {A : Type} (m : Handler c A)
  : Handler c A :=
  fun st =>
    match m st with
    | (st', Raise (ValueError message)) =>
        (st', Raise (HTTPException HTTP_422_UNPROCESSABLE_ENTITY message))
    | r => r
    end.

(** Modelled from the spec: [argilla.server.policies.authorize] is not under
    src/.  The Authorization Policy, given a resolved identity and an
    action, decides allow or deny; a deny raises. *)
Definition authorize (c : DatasetsContext) (actor : CurrentUser c)
  (action : PolicyAction c) : Handler c unit :=
  if is_authorized c actor action then hret tt else hraise ForbiddenError.

Definition _get_dataset (c : DatasetsContext) (dataset_id : string)
  : Handler c (Dataset c) :=
  let! dataset := query (fun db => get_dataset_by_id c db dataset_id) in
  match dataset with
  | None =>
      hraise (HTTPException HTTP_404_NOT_FOUND
                ("Dataset with id `" +:+ dataset_id +:+ "` not found"))
  | Some dataset => hret dataset
  end.

Definition list_current_user_datasets (c : DatasetsContext)
  (current_user : CurrentUser c) : Handler c (list (Dataset c)) :=
  let! _ := authorize c current_user (DatasetPolicyV1_list c) in
  if user_is_admin c current_user
  then query (list_datasets c)
  else query (fun db => user_datasets c db current_user).

Definition list_dataset_fields (c : DatasetsContext) (dataset_id : string)
  (current_user : CurrentUser c) : Handler c (list (Field c)) :=
  let! dataset := _get_dataset c dataset_id in
  let! _ := authorize c current_user (DatasetPolicyV1_get c dataset) in
  query (fun db => dataset_fields c db dataset).

Definition list_dataset_questions (c : DatasetsContext) (dataset_id : string)
  (current_user : CurrentUser c) : Handler c (list (Question c)) :=
  let! dataset := _get_dataset c dataset_id in
  let! _ := authorize c current_user (DatasetPolicyV1_get c dataset) in
  query (fun db => dataset_questions c db dataset).

Definition list_current_user_dataset_records (c : DatasetsContext)
  (dataset_id : string) (include : list (RecordInclude c)) (offset limit : Z)
  (current_user : CurrentUser c) : Handler c (Records (RecordDict c)) :=
  let! dataset := _get_dataset c dataset_id in
  let! _ := authorize c current_user (DatasetPolicyV1_get c dataset) in
  let! records :=
    query (fun db => list_records_by_dataset_id_and_user_id c db dataset_id
                       (user_id c current_user) include offset limit) in
  let! total := query (fun db => count_records_by_dataset_id c db dataset_id) in
  hret (mkRecords (map (record_dict c) records) total).

Definition get_dataset (c : DatasetsContext) (dataset_id : string)
  (current_user : CurrentUser c) : Handler c (Dataset c) :=
  let! dataset := _get_dataset c dataset_id in
  let! _ := authorize c current_user (DatasetPolicyV1_get c dataset) in
  hret dataset.

Definition get_current_user_dataset_metrics (c : DatasetsContext)
  (dataset_id : string) (current_user : CurrentUser c) : Handler c Metrics :=
  let! dataset := _get_dataset c dataset_id in
  let! _ := authorize c current_user (DatasetPolicyV1_get c dataset) in
  query (fun db =>
    mkMetrics
      (count_records_by_dataset_id c db dataset_id)
      (count_responses_by_dataset_id_and_user_id c db dataset_id (user_id c current_user))
      (count_submitted_responses_by_dataset_id_and_user_id c db dataset_id
         (user_id c current_user))
      (count_discarded_responses_by_dataset_id_and_user_id c db dataset_id
         (user_id c current_user))).

Definition create_dataset (c : DatasetsContext) (dataset_create : DatasetCreate c)
  (current_user : CurrentUser c) : Handler c (Dataset c) :=
  let! _ := authorize c current_user (DatasetPolicyV1_create c) in
  let! existing :=
    query (fun db => get_dataset_by_name_and_workspace_id c db
                       (dataset_create_name c dataset_create)
                       (dataset_create_workspace_id c dataset_create)) in
  match existing with
  | Some _ =>
      hraise (HTTPException HTTP_409_CONFLICT
                ("Dataset with name `" +:+ dataset_create_name c dataset_create
                 +:+ "` already exists for workspace with id `"
                 +:+ dataset_create_workspace_id c dataset_create +:+ "`"))
  | None => operation (fun db => datasets_create_dataset c db dataset_create)
  end.

Definition create_dataset_field (c : DatasetsContext) (dataset_id : string)
  (field_create : FieldCreate c) (current_user : CurrentUser c)
  : Handler c (Field c) :=
  let! _ := authorize c current_user (DatasetPolicyV1_create_field c) in
  let! dataset := _get_dataset c dataset_id in
  let! existing :=
    query (fun db => get_field_by_name_and_dataset_id c db
                       (field_create_name c field_create) dataset_id) in
  match existing with
  | Some _ =>
      hraise (HTTPException HTTP_409_CONFLICT
                ("Field with name `" +:+ field_create_name c field_create
                 +:+ "` already exists for dataset with id `" +:+ dataset_id +:+ "`"))
  | None =>
      except_ValueError
        (operation (fun db => datasets_create_field c db dataset field_create))
  end.

Definition create_dataset_question (c : DatasetsContext) (dataset_id : string)
  (question_create : QuestionCreate c) (current_user : CurrentUser c)
  : Handler c (Question c) :=
  let! _ := authorize c current_user (DatasetPolicyV1_create_question c) in
  let! dataset := _get_dataset c dataset_id in
  let! existing :=
    query (fun db => get_question_by_name_and_dataset_id c db
                       (question_create_name c question_create) dataset_id) in
  match existing with
  | Some _ =>
      hraise (HTTPException HTTP_409_CONFLICT
                ("Question with name `" +:+ question_create_name c question_create
                 +:+ "` already exists for dataset with id `" +:+ dataset_id +:+ "`"))
  | None =>
      except_ValueError
        (operation (fun db => datasets_create_question c db dataset question_create))
  end.

Definition create_dataset_records (c : DatasetsContext) (dataset_id : string)
  (records_create : RecordsCreate c) (current_user : CurrentUser c)
  : Handler c unit :=
  let! _ := authorize c current_user (DatasetPolicyV1_create_records c) in
  let! dataset := _get_dataset c dataset_id in
  except_ValueError
    (operation (fun db => datasets_create_records c db dataset current_user records_create)).

Definition publish_dataset (c : DatasetsContext) (dataset_id : string)
  (current_user : CurrentUser c) : Handler c (Dataset c) :=
  let! _ := authorize c current_user (DatasetPolicyV1_publish c) in
  let! dataset := _get_dataset c dataset_id in
  except_ValueError (operation (fun db => datasets_publish_dataset c db dataset)).

Definition delete_dataset (c : DatasetsContext) (dataset_id : string)
  (current_user : CurrentUser c) : Handler c (Dataset c) :=
  let! _ := authorize c current_user (DatasetPolicyV1_delete c) in
  let! dataset := _get_dataset c dataset_id in
  let! _ := operation (fun db => datasets_delete_dataset c db dataset) in
  hret dataset.

(** ** Sample data

    A symbolic signing primitive (the tag names the algorithm and the key), a
    password check against a prefixed password, a store of two users and two
    configurations, for the concrete instances below. *)
Definition tag_sign (alg key : string) (input : string * gmap string PyValue) : string :=
  alg +:+ ":" +:+ key.

Definition plain_verify (password hash : string) : bool :=
  bool_decide (hash = "hash:" +:+ password).

Definition alice : User := mkUser "alice" "key-alice" "hash:wonderland".
Definition bob : User := mkUser "bob" "key-bob" "hash:builder".
Definition sample_db : list User := [alice; bob].

Definition sample_settings : Settings := mkSettings "s3cret" "HS256" 15.
Definition no_expiry_settings : Settings := mkSettings "s3cret" "HS256" 0.

Definition negative_settings : Settings := mkSettings "s3cret" "HS256" (-5).




(** A store with a user whose username is the empty string. *)
Definition nameless : User := mkUser EmptyString "key-nameless" "hash:void".
Definition nameless_db : list User := [nameless; alice].

(** 2023-11-14 22:13:20.250000 UTC. *)
Definition sample_now : Z := 1700000000250000.

(** The token of bob issued at [sample_now] for 15 minutes, the token of
    alice issued without expiration, a token that is signed with the
    configured key but names no subject, and one signed with the configured
    key under another algorithm. *)
Definition bob_token : TokenStr :=
  Compact (mkJWS "HS256" (<[ "exp" := PyInt 1700000900 ]> {[ "sub" := PyStr "bob" ]})
             "HS256:s3cret").

Definition alice_forever_token : TokenStr :=
  Compact (mkJWS "HS256" {[ "sub" := PyStr "alice" ]} "HS256:s3cret").

Definition anonymous_token : TokenStr :=
  Compact (mkJWS "HS256" ∅ "HS256:s3cret").

Definition hs512_token : TokenStr :=
  Compact (mkJWS "HS512" {[ "sub" := PyStr "bob" ]} "HS512:s3cret").

(** A datasets context for the concrete instances: the state is the list of
    the ids of the datasets, a dataset is its id, a user is an id and the
    admin flag, and an action is allowed to everyone or to admins only.  A
    field or a question whose name is empty is refused with a
    [ValueError]. *)
Definition sample_find (st : list string) (dataset_id : string) : option string :=
  if bool_decide (dataset_id ∈ st) then Some dataset_id else None.

Definition sample_create (st : list string) (name : string)
  : list string * Raises string string :=
  if str_truthy name then (st, Return name) else (st, Raise "the name is empty").

Definition sample_context : DatasetsContext := {|
  State := list string;
  CurrentUser := string * bool;
  Dataset := string;
  Field := string;
  Question := string;
  Rec := string;
  RecordDict := string;
  RecordInclude := string;
  DatasetCreate := string * string;
  FieldCreate := string;
  QuestionCreate := string;
  RecordsCreate := list string;
  PolicyAction := bool;
  user_id := fst;
  user_is_admin := snd;
  user_datasets := fun _ _ => [];
  dataset_fields := fun _ _ => [];
  dataset_questions := fun _ _ => [];
  record_dict := fun r => r;
  dataset_create_name := fst;
  dataset_create_workspace_id := snd;
  field_create_name := fun name => name;
  question_create_name := fun name => name;
  is_authorized := fun user admins_only => if admins_only then snd user else true;
  DatasetPolicyV1_list := false;
  DatasetPolicyV1_get := fun _ => false;
  DatasetPolicyV1_create := true;
  DatasetPolicyV1_create_field := true;
  DatasetPolicyV1_create_question := true;
  DatasetPolicyV1_create_records := true;
  DatasetPolicyV1_publish := true;
  DatasetPolicyV1_delete := true;
  get_dataset_by_id := sample_find;
  list_datasets := fun st => st;
  get_dataset_by_name_and_workspace_id := fun st name _ => sample_find st name;
  get_field_by_name_and_dataset_id := fun _ name _ =>
    if bool_decide (name = "text") then Some name else None;
  get_question_by_name_and_dataset_id := fun _ name _ =>
    if bool_decide (name = "label") then Some name else None;
  list_records_by_dataset_id_and_user_id := fun _ _ _ _ _ _ => [];
  count_records_by_dataset_id := fun _ _ => 0;
  count_responses_by_dataset_id_and_user_id := fun _ _ _ => 0;
  count_submitted_responses_by_dataset_id_and_user_id := fun _ _ _ => 0;
  count_discarded_responses_by_dataset_id_and_user_id := fun _ _ _ => 0;
  datasets_create_dataset := fun st dataset_create =>
    (fst dataset_create :: st, Return (fst dataset_create));
  datasets_create_field := fun st _ name => sample_create st name;
  datasets_create_question := fun st _ name => sample_create st name;
  datasets_create_records := fun st _ _ _ => (st, Return tt);
  datasets_publish_dataset := fun st dataset => (st, Return dataset);
  datasets_delete_dataset := fun st dataset =>
    (filter (fun d => d <> dataset) st, Return tt)
|}.

Definition sample_state : list string := ["ds-1"; "ds-2"].
Definition sample_admin : string * bool := ("u-admin", true).
Definition sample_annotator : string * bool := ("u-annotator", false).

Section Provider.

(** The signing primitive of the library's backend: [sign alg key input]
    is the signature of a signing input (the header's algorithm and the
    claim set) under a key.  The provider signs and verifies with the one
    [secret_key], so verification recomputes the signature and compares. *)
Variable sign : string -> string -> string * gmap string PyValue -> string.

(** The password hash check of the credential store
    ([verify_password password password_hash]). *)
Variable verify_password : string -> string -> bool.

(** Modelled from the spec: [accounts.authenticate_user] is not under src/.
    Login step 1 and 2: look the user up by username; if absent, or the
    stored password hash does not verify against the supplied password,
    there is no user. *)
Definition authenticate_user (db : list User) (name password : string) : option User :=
  match get_user_by_username db name with
  | Some user => if verify_password password (password_hash user) then Some user else None
  | None => None
  end.

(** Modelled from the spec: the Token Codec's issue step, python-jose's
    [jwt.encode claims key algorithm] (a library, not under src/):
    serialises and signs the claim set with the key and the algorithm.  As
    in the library, the time claims exp, iat and nbf are converted to whole
    seconds first. *)
Definition jwt_encode (claims : gmap string PyValue) (key alg : string) : TokenStr :=
  let claims := int_dates claims in
  Compact (mkJWS alg claims (sign alg key (alg, claims))).

(** Modelled from the spec: signature verification of the Token Codec,
    python-jose's [jws.verify token key algorithms]: the header's algorithm
    has to be one of [algorithms], and the signature has to be the one the
    key gives for the signing input.  The configured algorithm is taken to
    be one the library implements ([jwt.encode] refuses any other). *)
Definition jws_verify (token : TokenStr) (key : string) (algorithms : list string)
  : Raises JWSError (gmap string PyValue) :=
  match token with
  | NotJWS _ => Raise NotEnoughSegments
  | Compact j =>
      if negb (bool_decide (jws_alg j ∈ algorithms)) then Raise AlgNotAllowed
      else if bool_decide (sign (jws_alg j) key (jws_alg j, jws_claims j) = jws_signature j)
           then Return (jws_claims j)
           else Raise SignatureVerificationFailed
  end.

(** Modelled from the spec: the expiration check of the Token Codec
    (python-jose's [_validate_exp], leeway 0): fails with Expired if an
    expiration claim is present and has passed.  The library compares whole
    seconds and raises when [exp < now]. *)
Definition _validate_exp (claims : gmap string PyValue) (now : datetime) : Raises JWTError unit :=
  match claims !! "exp" with
  | None => Return tt
  | Some (PyInt exp) => if exp <? timegm now then Raise Expired else Return tt
  | Some _ => Raise InvalidClaims
  end.

(** Modelled from the spec: python-jose's [_validate_sub] with no expected
    subject: a subject claim, when present, has to be a string. *)
Definition _validate_sub (claims : gmap string PyValue) : Raises JWTError unit :=
  match claims !! "sub" with
  | None | Some (PyStr _) => Return tt
  | Some _ => Raise InvalidClaims
  end.

(** Modelled from the spec: the Token Codec's verify, python-jose's
    [jwt.decode token key algorithms] at the instant [now]: verifies the
    signature against the key and the algorithms; fails with
    InvalidSignature if verification fails, with Expired if an expiration
    claim is present and has passed, otherwise returns the claim set.  The
    claims the provider neither writes nor reads (nbf, iat, aud, iss, jti)
    are not modelled. *)
Definition jwt_decode (now : datetime) (token : TokenStr) (key : string)
  (algorithms : list string) : Raises JWTError (gmap string PyValue) :=
  match jws_verify token key algorithms with
  | Raise e => Raise (InvalidSignature e)
  | Return claims =>
      match _validate_exp claims now with
      | Raise e => Raise e
      | Return _ =>
          match _validate_sub claims with
          | Raise e => Raise e
          | Return _ => Return claims
          end
      end
  end.

(** [jwt.get_unverified_claims]: the claim set a token carries, read without
    any check. *)
Definition get_unverified_claims (token : TokenStr) : option (gmap string PyValue) :=
  match token with
  | Compact j => Some (jws_claims j)
  | NotJWS _ => None
  end.

(** ** [DBAuthProvider] *)

(** [DBAuthProvider._create_access_token]: [expires_delta] is [None] by
    default, and the expiration is written only when it is truthy.
    [to_encode] is the claim set the function builds, in its final state.
    The sum [now + d] is the [datetime] of the source when it is in the
    range of a [datetime] ([datetime_in_range]); outside it the source
    raises [OverflowError] and builds nothing. *)
Definition to_encode (now : datetime) (name : string)
  (expires_delta : option timedelta) : gmap string PyValue :=
  let to_encode : gmap string PyValue := {[ "sub" := PyStr name ]} in
  match expires_delta with
  | Some d => if timedelta_truthy d then <[ "exp" := PyDatetime (now + d) ]> to_encode
              else to_encode
  | None => to_encode
  end.

Definition _create_access_token (settings : Settings) (now : datetime)
  (name : string) (expires_delta : option timedelta) : TokenStr :=
  jwt_encode (to_encode now name expires_delta) (secret_key settings) (algorithm settings).

(** [DBAuthProvider.fetch_token_user]: any [JWTError] gives [None], and so
    does a payload whose subject is missing or falsy (the function then
    ends without a [return]).  A decoded subject is never anything but a
    string ([jwt_decode_sub] below), so the last branch stands for the
    missing subject. *)
Definition fetch_token_user (settings : Settings) (now : datetime)
  (db : list User) (token : TokenStr) : option User :=
  match jwt_decode now token (secret_key settings) [algorithm settings] with
  | Return payload =>
      match payload !! "sub" with
      | Some (PyStr name) => if str_truthy name then get_user_by_username db name else None
      | _ => None
      end
  | Raise _ => None
  end.

(** [DBAuthProvider.get_current_user].  [api_key] and [token] are the
    optional header values; the unused [security_scopes] and [request] are
    left out.  [by_token] is the [elif token:] branch, which runs only when
    [api_key] is falsy. *)
Definition get_current_user (settings : Settings) (now : datetime)
  (db : list User) (api_key : option string) (token : option TokenStr)
  : Raises UnauthorizedError User :=
  let by_token :=
    match token with
    | Some t => if token_truthy t then fetch_token_user settings now db t else None
    | None => None
    end in
  let user :=
    match api_key with
    | Some key => if str_truthy key then get_user_by_api_key db key else by_token
    | None => by_token
    end in
  match user with
  | None => Raise Unauthorized
  | Some u => Return u
  end.

(** The route [login_for_access_token] that [configure_app] registers.  The
    result is the one of the source when [expiration_in_range] holds; when
    it does not, the source raises [OverflowError] after the user has been
    authenticated, which the theorems about a login that returns exclude by
    hypothesis. *)
Definition login_for_access_token (settings : Settings) (now : datetime)
  (db : list User) (form_username form_password : string)
  : Raises UnauthorizedError Token :=
  match authenticate_user db form_username form_password with
  | None => Raise Unauthorized
  | Some user =>
      let access_token_expires := timedelta_minutes (token_expiration_in_minutes settings) in
      let access_token :=
        _create_access_token settings now (username user) (Some access_token_expires) in
      Return (mkToken access_token)
  end.

(** * Properties *)

(** ** Python truthiness and the clock *)

Lemma str_truthy_nonempty (s : string) : str_truthy s = true <-> s <> EmptyString.
Proof. destruct s; simpl; split; congruence. Qed.

Lemma timedelta_truthy_nonzero (d : Z) : timedelta_truthy d = true <-> d <> 0.
Proof.
  unfold timedelta_truthy. destruct (Z.eqb_spec d 0); simpl; split; congruence.
Qed.

Lemma timedelta_falsy_zero (d : Z) : timedelta_truthy d = false <-> d = 0.
Proof.
  unfold timedelta_truthy. destruct (Z.eqb_spec d 0); simpl; split; congruence.
Qed.

Lemma timegm_mono (t u : Z) : t <= u -> timegm t <= timegm u.
Proof. intros Htu. unfold timegm. apply Z.div_le_mono; lia. Qed.

Lemma timegm_next_second (t u : Z) : u + 1000000 <= t -> timegm u < timegm t.
Proof.
  intros Htu. unfold timegm.
  enough (u / 1000000 + 1 <= t / 1000000) by lia.
  rewrite <- (Z.div_add u 1 1000000) by lia.
  apply Z.div_le_mono; lia.
Qed.

(** ** The credential store *)

Lemma get_user_by_username_name (db : list User) (name : string) (user : User) :
  get_user_by_username db name = Some user -> username user = name.
Proof.
  unfold get_user_by_username. intros Hfind.
  apply find_some in Hfind as [_ Hname].
  by apply bool_decide_eq_true in Hname.
Qed.

Lemma authenticate_user_name (db : list User) (name password : string) (user : User) :
  authenticate_user db name password = Some user -> username user = name.
Proof.
  unfold authenticate_user.
  destruct (get_user_by_username db name) as [found|] eqn:Hlookup; [|discriminate].
  destruct (verify_password password (password_hash found)); [|discriminate].
  intros [= <-]. by eapply get_user_by_username_name.
Qed.

(** ** The claim set of an issued token *)

Lemma int_dates_sub (claims : gmap string PyValue) :
  int_dates claims !! "sub" = claims !! "sub".
Proof. unfold int_dates. by rewrite !lookup_alter_ne. Qed.

Lemma int_dates_exp (claims : gmap string PyValue) :
  int_dates claims !! "exp" = to_int_date <$> claims !! "exp".
Proof. unfold int_dates. rewrite !lookup_alter_ne by done. by rewrite lookup_alter_eq. Qed.

Lemma to_encode_sub (now : Z) (name : string) (expires_delta : option Z) :
  to_encode now name expires_delta !! "sub" = Some (PyStr name).
Proof.
  unfold to_encode. destruct expires_delta as [d|]; [destruct (timedelta_truthy d)|];
    by simplify_map_eq.
Qed.

Lemma to_encode_exp (now : Z) (name : string) (expires_delta : option Z) :
  to_encode now name expires_delta !! "exp" =
  match expires_delta with
  | Some d => if timedelta_truthy d then Some (PyDatetime (now + d)) else None
  | None => None
  end.
Proof.
  unfold to_encode. destruct expires_delta as [d|]; [destruct (timedelta_truthy d)|];
    by simplify_map_eq.
Qed.

Lemma to_encode_other (now : Z) (name key : string) (expires_delta : option Z) :
  key <> "sub" -> key <> "exp" -> to_encode now name expires_delta !! key = None.
Proof.
  intros Hsub Hexp. unfold to_encode.
  destruct expires_delta as [d|]; [destruct (timedelta_truthy d)|];
    by simplify_map_eq.
Qed.

Lemma issued_sub (now : Z) (name : string) (expires_delta : option Z) :
  int_dates (to_encode now name expires_delta) !! "sub" = Some (PyStr name).
Proof. by rewrite int_dates_sub, to_encode_sub. Qed.

Lemma issued_exp (now : Z) (name : string) (expires_delta : option Z) :
  int_dates (to_encode now name expires_delta) !! "exp" =
  match expires_delta with
  | Some d => if timedelta_truthy d then Some (PyInt (timegm (now + d))) else None
  | None => None
  end.
Proof.
  rewrite int_dates_exp, to_encode_exp.
  destruct expires_delta as [d|]; [destruct (timedelta_truthy d)|]; done.
Qed.

(** ** Decoding *)

Lemma jws_verify_signed (claims : gmap string PyValue) (key alg : string) :
  jws_verify (Compact (mkJWS alg claims (sign alg key (alg, claims)))) key [alg]
  = Return claims.
Proof.
  unfold jws_verify; simpl.
  rewrite (bool_decide_true (alg ∈ [alg])) by by apply list_elem_of_singleton.
  by rewrite bool_decide_true.
Qed.

(** Decoding an issued token with the key and algorithm that issued it: the
    only possible failure is the expiration. *)
Lemma jwt_decode_issued (settings : Settings) (now t : Z) (name : string)
  (expires_delta : option Z) :
  jwt_decode t (_create_access_token settings now name expires_delta)
    (secret_key settings) [algorithm settings]
  = match expires_delta with
    | Some d =>
        if timedelta_truthy d && (timegm (now + d) <? timegm t) then Raise Expired
        else Return (int_dates (to_encode now name expires_delta))
    | None => Return (int_dates (to_encode now name expires_delta))
    end.
Proof.
  unfold _create_access_token, jwt_encode, jwt_decode.
  rewrite jws_verify_signed.
  unfold _validate_exp, _validate_sub.
  rewrite issued_exp, issued_sub.
  destruct expires_delta as [d|]; [|done].
  destruct (timedelta_truthy d); simpl; [|done].
  by destruct (timegm (now + d) <? timegm t).
Qed.

Lemma get_unverified_claims_issued (settings : Settings) (now : Z) (name : string)
  (expires_delta : option Z) :
  get_unverified_claims (_create_access_token settings now name expires_delta)
  = Some (int_dates (to_encode now name expires_delta)).
Proof. reflexivity. Qed.

(** A decoded claim set is the one the token carries. *)
Lemma jwt_decode_claims (t : Z) (token : TokenStr) (key : string)
  (algorithms : list string) (claims : gmap string PyValue) :
  jwt_decode t token key algorithms = Return claims ->
  get_unverified_claims token = Some claims.
Proof.
  unfold jwt_decode, jws_verify. destruct token as [j|raw]; simpl; [|discriminate].
  destruct (negb _); [discriminate|].
  destruct (bool_decide _); [|discriminate].
  destruct (_validate_exp _ _); [|discriminate].
  destruct (_validate_sub _); [|discriminate].
  by intros [= <-].
Qed.

(** The subject of a decoded claim set is missing or a string. *)
Lemma jwt_decode_sub (t : Z) (token : TokenStr) (key : string)
  (algorithms : list string) (claims : gmap string PyValue) :
  jwt_decode t token key algorithms = Return claims ->
  claims !! "sub" = None \/ exists name, claims !! "sub" = Some (PyStr name).
Proof.
  unfold jwt_decode. destruct (jws_verify _ _ _) as [c|]; [|discriminate].
  destruct (_validate_exp _ _); [|discriminate].
  unfold _validate_sub.
  destruct (c !! "sub") as [[name| |]|] eqn:Hsub; try discriminate;
    intros [= <-]; eauto.
Qed.

(** ** Resolving the user of a request *)

(** With an API key in the request the provider only asks the store for the
    key's user. *)
Lemma get_current_user_api_key (settings : Settings) (now : Z) (db : list User)
  (key : string) (token : option TokenStr) :
  str_truthy key = true ->
  get_current_user settings now db (Some key) token
  = match get_user_by_api_key db key with
    | Some u => Return u
    | None => Raise Unauthorized
    end.
Proof. intros Hkey. unfold get_current_user. by rewrite Hkey. Qed.

(** Without an API key the provider resolves the bearer token, if any. *)
Lemma get_current_user_token (settings : Settings) (now : Z) (db : list User)
  (api_key : option string) (token : option TokenStr) :
  carries_api_key api_key = false ->
  get_current_user settings now db api_key token
  = match (if carries_token token
           then default None (fetch_token_user settings now db <$> token)
           else None) with
    | Some u => Return u
    | None => Raise Unauthorized
    end.
Proof.
  intros Hkey. unfold get_current_user.
  destruct api_key as [key|]; simpl in Hkey; [rewrite Hkey|];
    destruct token as [t|]; simpl; try done; by destruct (token_truthy t).
Qed.

(** C1. When a request carries an API key, whatever bearer token comes with
    it, [get_current_user] resolves the identity by the API-key lookup
    alone: the result is the one of the request without the token, it is
    the same for every other token (the token is not consulted), it is the
    outcome of the lookup by API key, and when that lookup finds no user the
    request fails with [Unauthorized], also for a token that would
    authenticate a user on its own. *)
Theorem api_key_takes_precedence (settings : Settings) (now : Z) (db : list User)
  (key : string) (token : option TokenStr) :
  carries_api_key (Some key) = true ->
  get_current_user settings now db (Some key) token
    = get_current_user settings now db (Some key) None
  /\ (forall other : option TokenStr,
        get_current_user settings now db (Some key) token
        = get_current_user settings now db (Some key) other)
  /\ get_current_user settings now db (Some key) token
     = match get_user_by_api_key db key with
       | Some u => Return u
       | None => Raise Unauthorized
       end
  /\ (get_user_by_api_key db key = None ->
      get_current_user settings now db (Some key) token = Raise Unauthorized).
Proof.
  simpl. intros Hkey.
  repeat split; intros; rewrite !get_current_user_api_key by done; try done.
  by match goal with H : _ = None |- _ => rewrite H end.
Qed.

(** The user [fetch_token_user] returns is the stored user that the verified
    subject names. *)
Lemma fetch_token_user_Some (settings : Settings) (now : Z) (db : list User)
  (token : TokenStr) (u : User) :
  fetch_token_user settings now db token = Some u <->
  exists claims name,
    jwt_decode now token (secret_key settings) [algorithm settings] = Return claims
    /\ claims !! "sub" = Some (PyStr name)
    /\ str_truthy name = true
    /\ get_user_by_username db name = Some u.
Proof.
  unfold fetch_token_user. split.
  - destruct (jwt_decode _ _ _ _) as [claims|]; [|discriminate].
    destruct (claims !! "sub") as [[name| |]|] eqn:Hsub; try discriminate.
    destruct (str_truthy name) eqn:Hname; [|discriminate].
    intros Hu. by exists claims, name.
  - intros (claims & name & -> & -> & -> & Hu). done.
Qed.

(** Every identity [get_current_user] yields comes from the store: it is
    the user of the API key, or, with no API key, the user named by the
    subject of the verified token. *)
Lemma get_current_user_provenance (settings : Settings) (now : Z) (db : list User)
  (api_key : option string) (token : option TokenStr) (u : User) :
  get_current_user settings now db api_key token = Return u ->
  (exists key, api_key = Some key /\ str_truthy key = true
               /\ get_user_by_api_key db key = Some u)
  \/ (carries_api_key api_key = false
      /\ exists t claims name,
           token = Some t
           /\ jwt_decode now t (secret_key settings) [algorithm settings] = Return claims
           /\ claims !! "sub" = Some (PyStr name)
           /\ get_user_by_username db name = Some u).
Proof.
  destruct (carries_api_key api_key) eqn:Hcarries.
  - destruct api_key as [key|]; [|discriminate]. simpl in Hcarries.
    rewrite get_current_user_api_key by done.
    destruct (get_user_by_api_key db key) as [v|] eqn:Hlookup; [|discriminate].
    intros [= ->]. left. by exists key.
  - rewrite get_current_user_token by done.
    destruct token as [t|]; simpl; [|discriminate].
    destruct (token_truthy t); [|discriminate]. simpl.
    destruct (fetch_token_user settings now db t) as [v|] eqn:Hfetch; [|discriminate].
    intros [= ->]. right. split; [done|].
    apply fetch_token_user_Some in Hfetch as (claims & name & ? & ? & ? & ?).
    by exists t, claims, name.
Qed.

(** C8 (amended). A request that carries no API key fails with
    [Unauthorized] when it carries no bearer token either, and when its
    token verifies but its subject claim is missing, empty, or names no user
    of the credential store; an identity it yields is always the stored
    user that the verified subject names, never a default one. *)
Theorem unauthenticated_without_identity (settings : Settings) (now : Z)
  (db : list User) (api_key : option string) (token : option TokenStr) :
  carries_api_key api_key = false ->
  (carries_token token = false ->
   get_current_user settings now db api_key token = Raise Unauthorized)
  /\ (forall t claims,
        token = Some t ->
        jwt_decode now t (secret_key settings) [algorithm settings] = Return claims ->
        claims !! "sub" = None
        \/ claims !! "sub" = Some (PyStr EmptyString)
        \/ (exists name, claims !! "sub" = Some (PyStr name)
                         /\ get_user_by_username db name = None) ->
        get_current_user settings now db api_key token = Raise Unauthorized)
  /\ (forall u,
        get_current_user settings now db api_key token = Return u ->
        exists t claims name,
          token = Some t
          /\ jwt_decode now t (secret_key settings) [algorithm settings] = Return claims
          /\ claims !! "sub" = Some (PyStr name)
          /\ get_user_by_username db name = Some u).
Proof.
  intros Hkey. split; [|split].
  - intros Htoken. rewrite get_current_user_token by done. by rewrite Htoken.
  - intros t claims -> Hdecode Hsub.
    rewrite get_current_user_token by done. simpl.
    enough (fetch_token_user settings now db t = None) as -> by by destruct (token_truthy t).
    unfold fetch_token_user. rewrite Hdecode.
    destruct Hsub as [-> | [-> | (name & -> & Hnone)]]; [done|done|].
    by destruct (str_truthy name).
  - intros u Hu. apply get_current_user_provenance in Hu as [(key & -> & Htruthy & _)|[_ Hu]].
    + simpl in Hkey. congruence.
    + done.
Qed.

(** ** Issuing and verifying tokens *)

(** C2 (amended). A token issued at [now] with a non-zero ttl [T] carries
    the whole seconds of [now + T] as its expiration.  Verification with the
    issuing key and algorithm succeeds at every instant strictly before
    [now + T], and more generally at every instant whose whole second is not
    after the one of [now + T]; it fails with [Expired] at every instant
    whose whole second is after it, so at every instant from one second
    after [now + T] on. *)
Theorem token_expiry_window (settings : Settings) (now T t : Z) (name : string) :
  T <> 0 ->
  let token := _create_access_token settings now name (Some T) in
  let verify := jwt_decode t token (secret_key settings) [algorithm settings] in
  let claims := int_dates (to_encode now name (Some T)) in
  claims !! "exp" = Some (PyInt (timegm (now + T)))
  /\ (t < now + T -> verify = Return claims)
  /\ (timegm t <= timegm (now + T) -> verify = Return claims)
  /\ (timegm (now + T) < timegm t -> verify = Raise Expired)
  /\ (now + T + 1000000 <= t -> verify = Raise Expired).
Proof.
  intros HT token verify claims. subst token verify claims.
  apply timedelta_truthy_nonzero in HT.
  rewrite jwt_decode_issued, issued_exp, HT. simpl.
  split; [done|].
  assert (Hok : timegm t <= timegm (now + T) ->
                (if timegm (now + T) <? timegm t
                 then @Raise JWTError (gmap string PyValue) Expired
                 else Return (int_dates (to_encode now name (Some T))))
                = Return (int_dates (to_encode now name (Some T)))).
  { intros Hle. destruct (Z.ltb_spec (timegm (now + T)) (timegm t)); [lia|done]. }
  assert (Hko : timegm (now + T) < timegm t ->
                (if timegm (now + T) <? timegm t
                 then @Raise JWTError (gmap string PyValue) Expired
                 else Return (int_dates (to_encode now name (Some T))))
                = Raise Expired).
  { intros Hlt. destruct (Z.ltb_spec (timegm (now + T)) (timegm t)); [done|lia]. }
  repeat split.
  - intros Hlt. apply Hok, timegm_mono. lia.
  - done.
  - done.
  - intros Hge. by apply Hko, timegm_next_second.
Qed.

(** C3. Round trip: decoding a token issued for [subject] with the issuing
    key and algorithm, at an instant at which its ttl has not run out,
    returns a claim set whose subject is [subject]. *)
Theorem issue_verify_round_trip (settings : Settings) (now t : Z)
  (subject : string) (ttl : option Z) :
  match ttl with Some T => t < now + T | None => True end ->
  exists claims,
    jwt_decode t (_create_access_token settings now subject ttl)
      (secret_key settings) [algorithm settings] = Return claims
    /\ claims !! "sub" = Some (PyStr subject).
Proof.
  intros Hfresh. exists (int_dates (to_encode now subject ttl)).
  split; [|apply issued_sub].
  rewrite jwt_decode_issued. destruct ttl as [T|]; [|done].
  destruct (Z.ltb_spec (timegm (now + T)) (timegm t)) as [Hlt|_].
  - pose proof (timegm_mono t (now + T)). lia.
  - by rewrite andb_false_r.
Qed.

(** C9 (amended). [_create_access_token] builds a claim set with the
    subject and nothing else but the expiration, which it adds, as
    [now + ttl], exactly when a ttl is given and is not zero; the token
    carries that claim set, with the expiration in whole seconds.  Without a
    ttl, or with a zero ttl, the token has no expiration claim and verifies
    at every instant. *)
Theorem issued_claim_set (settings : Settings) (now : Z) (subject : string)
  (ttl : option Z) :
  let built := to_encode now subject ttl in
  let token := _create_access_token settings now subject ttl in
  built !! "sub" = Some (PyStr subject)
  /\ (forall key, key <> "sub" -> key <> "exp" -> built !! key = None)
  /\ (forall T, ttl = Some T -> T <> 0 -> built !! "exp" = Some (PyDatetime (now + T)))
  /\ (is_Some (built !! "exp") <-> exists T, ttl = Some T /\ T <> 0)
  /\ get_unverified_claims token = Some (int_dates built)
  /\ int_dates built !! "exp" = to_int_date <$> built !! "exp"
  /\ (ttl = None \/ ttl = Some 0 ->
      built !! "exp" = None
      /\ forall t, jwt_decode t token (secret_key settings) [algorithm settings]
                   = Return (int_dates built)).
Proof.
  intros built token. subst built token.
  split; [apply to_encode_sub|].
  split; [intros key; apply to_encode_other|].
  split.
  { intros T -> HT. rewrite to_encode_exp.
    apply timedelta_truthy_nonzero in HT. by rewrite HT. }
  split.
  { rewrite to_encode_exp. split.
    - destruct ttl as [T|]; [|by intros [? ?]].
      destruct (timedelta_truthy T) eqn:HT; [|by intros [? ?]].
      intros _. exists T. split; [done|]. by apply timedelta_truthy_nonzero.
    - intros (T & -> & HT). apply timedelta_truthy_nonzero in HT. by rewrite HT. }
  split; [done|].
  split; [apply int_dates_exp|].
  intros Hnone. split.
  - rewrite to_encode_exp. by destruct Hnone as [-> | ->].
  - intros t. rewrite jwt_decode_issued. by destruct Hnone as [-> | ->].
Qed.

(** A token signed with another key than the configured one, a key
    under which the signing primitive gives another signature than under
    the configured key, fails verification with [InvalidSignature],
    whatever its claims and whenever it is verified (the signature is
    checked before the expiration); the provider resolves no user for it,
    and a request that relies on it is rejected. *)
Lemma foreign_key_rejected (settings : Settings) (now : Z) (db : list User)
  (other_key alg : string) (claims : gmap string PyValue) :
  sign alg other_key (alg, claims) <> sign alg (secret_key settings) (alg, claims) ->
  let token := Compact (mkJWS alg claims (sign alg other_key (alg, claims))) in
  other_key <> secret_key settings
  /\ (exists why, jwt_decode now token (secret_key settings) [algorithm settings]
                  = Raise (InvalidSignature why))
  /\ (alg = algorithm settings ->
      jwt_decode now token (secret_key settings) [algorithm settings]
      = Raise (InvalidSignature SignatureVerificationFailed))
  /\ fetch_token_user settings now db token = None
  /\ get_current_user settings now db None (Some token) = Raise Unauthorized.
Proof.
  intros Hsig token.
  assert (Hverify : exists why,
             jws_verify token (secret_key settings) [algorithm settings] = Raise why
             /\ (alg = algorithm settings -> why = SignatureVerificationFailed)).
  { unfold jws_verify, token; simpl.
    destruct (bool_decide (alg ∈ [algorithm settings])) eqn:Halg; simpl.
    - rewrite bool_decide_false; [by eexists|]. congruence.
    - exists AlgNotAllowed. split; [done|]. intros ->.
      apply bool_decide_eq_false in Halg. destruct Halg. by apply list_elem_of_singleton. }
  destruct Hverify as (why & Hwhy & Hsame).
  assert (Hdecode : jwt_decode now token (secret_key settings) [algorithm settings]
                    = Raise (InvalidSignature why)).
  { unfold jwt_decode. by rewrite Hwhy. }
  assert (Hfetch : fetch_token_user settings now db token = None).
  { unfold fetch_token_user. by rewrite Hdecode. }
  split; [congruence|].
  split; [by exists why|].
  split; [intros Halg; by rewrite Hdecode, (Hsame Halg)|].
  split; [done|].
  unfold get_current_user. simpl. by rewrite Hfetch.
Qed.

(** C5. A token whose header names an algorithm other than the configured
    one is rejected before its signature is looked at, so also when the
    signature is the right one for the declared algorithm; the provider
    resolves no user for it. *)
Theorem unexpected_algorithm_rejected (settings : Settings) (now : Z)
  (db : list User) (j : JWS) :
  jws_alg j <> algorithm settings ->
  jwt_decode now (Compact j) (secret_key settings) [algorithm settings]
  = Raise (InvalidSignature AlgNotAllowed)
  /\ fetch_token_user settings now db (Compact j) = None
  /\ get_current_user settings now db None (Some (Compact j)) = Raise Unauthorized.
Proof.
  intros Halg.
  assert (Hdecode : jwt_decode now (Compact j) (secret_key settings) [algorithm settings]
                    = Raise (InvalidSignature AlgNotAllowed)).
  { unfold jwt_decode, jws_verify.
    rewrite (bool_decide_false (jws_alg j ∈ [algorithm settings])); [done|].
    intros Hin%list_elem_of_singleton. done. }
  assert (Hfetch : fetch_token_user settings now db (Compact j) = None).
  { unfold fetch_token_user. by rewrite Hdecode. }
  repeat split; [done|done|].
  unfold get_current_user. simpl. by rewrite Hfetch.
Qed.

(** ** Login *)

(** C6. For a username and password that the credential store validates,
    and a configured expiration that the clock can represent (no
    [OverflowError]), login returns a token; the claim set the token carries has the
    supplied username as its subject, every successful decoding of the token
    returns that subject, and decoding succeeds at every instant before the
    configured expiration (at every instant when the configuration is 0
    minutes). *)
Theorem login_token_subject (settings : Settings) (now : Z) (db : list User)
  (name password : string) (user : User) :
  authenticate_user db name password = Some user ->
  expiration_in_range settings now = true ->
  exists token,
    login_for_access_token settings now db name password = Return (mkToken token)
    /\ (exists claims, get_unverified_claims token = Some claims
                       /\ claims !! "sub" = Some (PyStr name))
    /\ (forall t claims,
          jwt_decode t token (secret_key settings) [algorithm settings] = Return claims ->
          claims !! "sub" = Some (PyStr name))
    /\ (forall t,
          t < now + timedelta_minutes (token_expiration_in_minutes settings)
          \/ token_expiration_in_minutes settings = 0 ->
          exists claims,
            jwt_decode t token (secret_key settings) [algorithm settings] = Return claims
            /\ claims !! "sub" = Some (PyStr name)).
Proof.
  intros Hauth Hrange. pose proof (authenticate_user_name _ _ _ _ Hauth) as Hname.
  unfold login_for_access_token. rewrite Hauth, Hname.
  set (ttl := timedelta_minutes (token_expiration_in_minutes settings)).
  exists (_create_access_token settings now name (Some ttl)).
  split; [done|]. split; [|split].
  - exists (int_dates (to_encode now name (Some ttl))). split; [done|]. apply issued_sub.
  - intros t claims Hdecode. apply jwt_decode_claims in Hdecode.
    rewrite get_unverified_claims_issued in Hdecode.
    assert (claims = int_dates (to_encode now name (Some ttl))) as -> by congruence.
    apply issued_sub.
  - intros t Ht. exists (int_dates (to_encode now name (Some ttl))).
    split; [|apply issued_sub].
    rewrite jwt_decode_issued.
    destruct Ht as [Ht | Hzero].
    + destruct (Z.ltb_spec (timegm (now + ttl)) (timegm t)) as [Hlt|_].
      * pose proof (timegm_mono t (now + ttl)). lia.
      * by rewrite andb_false_r.
    + subst ttl. rewrite Hzero. done.
Qed.

(** C7. Login with a username the store does not know and login with a
    known username and a password that does not verify both raise
    [UnauthorizedError], and the two results are equal. *)
Theorem login_failures_indistinguishable (settings : Settings) (now : Z)
  (db : list User) (unknown anything known wrong : string) (user : User) :
  get_user_by_username db unknown = None ->
  get_user_by_username db known = Some user ->
  verify_password wrong (password_hash user) = false ->
  login_for_access_token settings now db unknown anything = Raise Unauthorized
  /\ login_for_access_token settings now db known wrong = Raise Unauthorized
  /\ login_for_access_token settings now db unknown anything
     = login_for_access_token settings now db known wrong.
Proof.
  intros Hunknown Hknown Hwrong.
  unfold login_for_access_token, authenticate_user.
  by rewrite Hunknown, Hknown, Hwrong.
Qed.

(** C10. Login passes [timedelta(minutes=token_expiration_in_minutes)] as
    the expiration, for every configuration that the clock can represent
    (no [OverflowError]).  A configuration of 0 minutes gives a token without an
    expiration claim, which verifies at every instant; every other
    configuration, so every positive one, gives a token that carries the
    expiration [now] plus the configured minutes, in whole seconds. *)
Theorem login_expiration_claim (settings : Settings) (now : Z) (db : list User)
  (name password : string) (user : User) :
  authenticate_user db name password = Some user ->
  expiration_in_range settings now = true ->
  let minutes := token_expiration_in_minutes settings in
  let token :=
    _create_access_token settings now (username user) (Some (timedelta_minutes minutes)) in
  let claims := int_dates (to_encode now (username user) (Some (timedelta_minutes minutes))) in
  login_for_access_token settings now db name password = Return (mkToken token)
  /\ get_unverified_claims token = Some claims
  /\ (minutes = 0 ->
      claims !! "exp" = None
      /\ forall t, jwt_decode t token (secret_key settings) [algorithm settings]
                   = Return claims)
  /\ (0 < minutes ->
      claims !! "exp" = Some (PyInt (timegm (now + minutes * 60000000))))
  /\ (minutes <> 0 ->
      claims !! "exp" = Some (PyInt (timegm (now + minutes * 60000000)))).
Proof.
  intros Hauth Hrange minutes token claims. subst token claims.
  assert (Hexp : minutes <> 0 ->
            int_dates (to_encode now (username user) (Some (timedelta_minutes minutes)))
              !! "exp" = Some (PyInt (timegm (now + minutes * 60000000)))).
  { intros Hm. rewrite issued_exp.
    assert (Htruthy : timedelta_truthy (timedelta_minutes minutes) = true).
    { apply timedelta_truthy_nonzero. unfold timedelta_minutes. lia. }
    by rewrite Htruthy. }
  split; [|split; [done|split; [|split]]].
  - unfold login_for_access_token. by rewrite Hauth.
  - intros Hzero. rewrite Hzero. split.
    + by rewrite issued_exp.
    + intros t. by rewrite jwt_decode_issued.
  - intros Hpos. apply Hexp. lia.
  - done.
Qed.

(** ** The provider on the tokens it issues *)

(** What [fetch_token_user] returns for a token that [_create_access_token]
    issued under the same settings. *)
Lemma fetch_token_user_issued (settings : Settings) (now t : Z) (db : list User)
  (name : string) (expires_delta : option Z) :
  fetch_token_user settings t db (_create_access_token settings now name expires_delta)
  = if match expires_delta with
       | Some d => timedelta_truthy d && (timegm (now + d) <? timegm t)
       | None => false
       end
    then None
    else if str_truthy name then get_user_by_username db name else None.
Proof.
  unfold fetch_token_user. rewrite jwt_decode_issued.
  destruct expires_delta as [d|].
  - destruct (timedelta_truthy d && (timegm (now + d) <? timegm t)); [done|].
    by rewrite issued_sub.
  - by rewrite issued_sub.
Qed.

Lemma authenticate_user_lookup (db : list User) (name password : string) (user : User) :
  authenticate_user db name password = Some user ->
  get_user_by_username db name = Some user.
Proof.
  unfold authenticate_user.
  destruct (get_user_by_username db name) as [found|]; [|discriminate].
  destruct (verify_password password (password_hash found)); [|discriminate].
  by intros [= <-].
Qed.

(** A request without an API key whose token was issued with a non-zero
    ttl is rejected from one second after the ttl has run out. *)
Lemma expired_token_unauthorized (settings : Settings) (now t T : Z) (db : list User)
  (name : string) (api_key : option string) :
  carries_api_key api_key = false ->
  T <> 0 ->
  timegm (now + T) < timegm t ->
  get_current_user settings t db api_key
    (Some (_create_access_token settings now name (Some T))) = Raise Unauthorized.
Proof.
  intros Hkey HT Hlate. rewrite get_current_user_token by done. simpl.
  rewrite fetch_token_user_issued.
  apply timedelta_truthy_nonzero in HT. rewrite HT. simpl.
  destruct (Z.ltb_spec (timegm (now + T)) (timegm t)); [done|lia].
Qed.

(** X1. Whatever makes [jwt.decode] raise (a string that is no token, an
    algorithm that is not the configured one, a wrong signature, an
    expiration that has passed, a subject that is no string),
    [fetch_token_user] returns [None] and a request that has no API key
    fails with the one [Unauthorized]: the cause does not show. *)
Theorem rejected_token_unauthorized (settings : Settings) (now : Z) (db : list User)
  (api_key : option string) (token : TokenStr) (e : JWTError) :
  carries_api_key api_key = false ->
  jwt_decode now token (secret_key settings) [algorithm settings] = Raise e ->
  fetch_token_user settings now db token = None
  /\ get_current_user settings now db api_key (Some token) = Raise Unauthorized.
Proof.
  intros Hkey Hdecode.
  assert (Hfetch : fetch_token_user settings now db token = None).
  { unfold fetch_token_user. by rewrite Hdecode. }
  split; [done|].
  rewrite get_current_user_token by done. simpl.
  rewrite Hfetch. by destruct (token_truthy token).
Qed.

(** X2. Login and authentication compose: under a configured expiration
    that the clock can represent, the token that login returns for a
    user with a non-empty username authenticates that same user on every
    later request without API key (also one with an empty API key header),
    at every instant before the configured expiration, and at every instant
    when 0 minutes are configured. *)
Theorem login_then_authenticate (settings : Settings) (now t : Z) (db : list User)
  (name password : string) (user : User) (api_key : option string) :
  authenticate_user db name password = Some user ->
  expiration_in_range settings now = true ->
  str_truthy name = true ->
  carries_api_key api_key = false ->
  t < now + timedelta_minutes (token_expiration_in_minutes settings)
  \/ token_expiration_in_minutes settings = 0 ->
  exists token,
    login_for_access_token settings now db name password = Return token
    /\ get_current_user settings t db api_key (Some (access_token token)) = Return user.
Proof.
  intros Hauth Hrange Hname Hkey Ht.
  pose proof (authenticate_user_name _ _ _ _ Hauth) as Huser.
  pose proof (authenticate_user_lookup _ _ _ _ Hauth) as Hlookup.
  unfold login_for_access_token. rewrite Hauth, Huser.
  eexists. split; [reflexivity|]. simpl.
  rewrite get_current_user_token by done. simpl.
  rewrite fetch_token_user_issued, Hname, Hlookup.
  destruct Ht as [Ht | Hzero].
  - destruct (Z.ltb_spec
                (timegm (now + timedelta_minutes (token_expiration_in_minutes settings)))
                (timegm t)) as [Hlt|_].
    + pose proof (timegm_mono t
                    (now + timedelta_minutes (token_expiration_in_minutes settings))).
      lia.
    + by rewrite andb_false_r.
  - by rewrite Hzero.
Qed.

(** X3. The empty username: a token issued for it is valid (it decodes to the
    empty subject until it expires), but the provider never resolves a user
    from it, whatever the store holds; a user whose username is empty can
    log in (under an expiration that the clock can represent) and cannot
    use the token. *)
Theorem empty_subject_never_authenticates (settings : Settings) (now t : Z)
  (db : list User) (expires_delta : option Z) (api_key : option string) :
  fetch_token_user settings t db
    (_create_access_token settings now EmptyString expires_delta) = None
  /\ (carries_api_key api_key = false ->
      get_current_user settings t db api_key
        (Some (_create_access_token settings now EmptyString expires_delta))
      = Raise Unauthorized)
  /\ (forall password user,
        authenticate_user db EmptyString password = Some user ->
        expiration_in_range settings now = true ->
        exists token,
          login_for_access_token settings now db EmptyString password = Return token
          /\ get_current_user settings t db None (Some (access_token token))
             = Raise Unauthorized).
Proof.
  assert (Hfetch : forall ttl,
             fetch_token_user settings t db
               (_create_access_token settings now EmptyString ttl) = None).
  { intros ttl. rewrite fetch_token_user_issued. simpl.
    destruct ttl as [d|]; [|done].
    by destruct (timedelta_truthy d && (timegm (now + d) <? timegm t)). }
  split; [apply Hfetch|]. split.
  - intros Hkey. rewrite get_current_user_token by done. simpl. by rewrite Hfetch.
  - intros password user Hauth Hrange.
    pose proof (authenticate_user_name _ _ _ _ Hauth) as Huser.
    unfold login_for_access_token. rewrite Hauth, Huser.
    eexists. split; [reflexivity|]. simpl.
    rewrite get_current_user_token by done. simpl. by rewrite Hfetch.
Qed.

(** X4. The token that login returns under a non-zero configuration that
    the clock can represent stops authenticating: from one second after the configured minutes have run
    out, a request that relies on it fails with [Unauthorized]. *)
Theorem login_token_expires (settings : Settings) (now t : Z) (db : list User)
  (name password : string) (user : User) (api_key : option string) :
  authenticate_user db name password = Some user ->
  expiration_in_range settings now = true ->
  carries_api_key api_key = false ->
  token_expiration_in_minutes settings <> 0 ->
  now + timedelta_minutes (token_expiration_in_minutes settings) + 1000000 <= t ->
  exists token,
    login_for_access_token settings now db name password = Return token
    /\ get_current_user settings t db api_key (Some (access_token token))
       = Raise Unauthorized.
Proof.
  intros Hauth Hrange Hkey Hminutes Hlate.
  unfold login_for_access_token. rewrite Hauth.
  eexists. split; [reflexivity|]. simpl.
  apply expired_token_unauthorized; [done| |by apply timegm_next_second].
  unfold timedelta_minutes. lia.
Qed.

(** X5. A negative configuration that the clock can represent: login
    succeeds, and the token it returns is
    already expired, so it authenticates nobody at the instant of the login
    or at any later instant. *)
Theorem negative_expiration_locks_out (settings : Settings) (now t : Z)
  (db : list User) (name password : string) (user : User) (api_key : option string) :
  authenticate_user db name password = Some user ->
  expiration_in_range settings now = true ->
  carries_api_key api_key = false ->
  token_expiration_in_minutes settings < 0 ->
  now <= t ->
  exists token,
    login_for_access_token settings now db name password = Return token
    /\ get_current_user settings t db api_key (Some (access_token token))
       = Raise Unauthorized.
Proof.
  intros Hauth Hrange Hkey Hminutes Hlate.
  unfold login_for_access_token. rewrite Hauth.
  eexists. split; [reflexivity|]. simpl.
  apply expired_token_unauthorized; [done| |apply timegm_next_second];
    unfold timedelta_minutes; lia.
Qed.

(** X6. Authentication by API key depends on the store alone: not on the secret
    key, the algorithm or the expiration of the settings, not on the clock
    and not on the token of the request. *)
Theorem api_key_independent_of_token_settings (settings settings' : Settings)
  (now now' : Z) (db : list User) (key : string) (token token' : option TokenStr) :
  carries_api_key (Some key) = true ->
  get_current_user settings now db (Some key) token
  = get_current_user settings' now' db (Some key) token'.
Proof. simpl. intros Hkey. by rewrite !get_current_user_api_key. Qed.

End Provider.

(** * Signatures under another key *)

Section HMAC.

(** The hash on keys and the keyed hash of the HMAC. *)
Variable digest : string -> string -> string.
Variable mac : string -> string -> string * gmap string PyValue -> string.



End HMAC.

(** * Concrete instances *)

(** The tokens of the sample data are the ones the provider issues. *)
Lemma bob_token_issued :
  _create_access_token tag_sign sample_settings sample_now "bob"
    (Some (timedelta_minutes 15)) = bob_token.
Proof. reflexivity. Qed.

Lemma alice_forever_token_issued :
  _create_access_token tag_sign sample_settings sample_now "alice" (Some 0)
  = alice_forever_token.
Proof. reflexivity. Qed.

(** A stale API key fails the request although the token alone
    authenticates bob. *)
Lemma api_key_takes_precedence_stale_key :
  get_current_user tag_sign sample_settings sample_now sample_db None (Some bob_token)
  = Return bob
  /\ get_current_user tag_sign sample_settings sample_now sample_db
       (Some "key-revoked") (Some bob_token) = Raise Unauthorized.
Proof.
  split; [reflexivity|].
  destruct (api_key_takes_precedence tag_sign sample_settings sample_now sample_db
              "key-revoked" (Some bob_token) eq_refl) as (_ & _ & _ & Hnone).
  apply Hnone. reflexivity.
Defined.

(** C2 fails as stated: a token issued with the ttl 0 has no expiration and
    verifies at [now + 0] and a day later; a token issued with a ttl of 15
    minutes still verifies at [now + T] itself. *)
Lemma expiry_at_ttl_counterexample :
  jwt_decode tag_sign (sample_now + 0)
    (_create_access_token tag_sign sample_settings sample_now "alice" (Some 0))
    "s3cret" ["HS256"] = Return {[ "sub" := PyStr "alice" ]}
  /\ jwt_decode tag_sign (sample_now + 0 + 86400000000)
       (_create_access_token tag_sign sample_settings sample_now "alice" (Some 0))
       "s3cret" ["HS256"] = Return {[ "sub" := PyStr "alice" ]}
  /\ jwt_decode tag_sign (sample_now + 900000000)
       (_create_access_token tag_sign sample_settings sample_now "bob" (Some 900000000))
       "s3cret" ["HS256"]
     = Return (<[ "exp" := PyInt 1700000900 ]> {[ "sub" := PyStr "bob" ]}).
Proof. repeat split; vm_compute; reflexivity. Qed.

(** The 15 minute token of bob: valid one microsecond before its ttl runs
    out, expired one second after. *)
Lemma token_expiry_window_bob :
  900000000 <> 0
  /\ jwt_decode tag_sign (sample_now + 900000000 - 1)
       (_create_access_token tag_sign sample_settings sample_now "bob" (Some 900000000))
       "s3cret" ["HS256"]
     = Return (int_dates (to_encode sample_now "bob" (Some 900000000)))
  /\ jwt_decode tag_sign (sample_now + 900000000 + 1000000)
       (_create_access_token tag_sign sample_settings sample_now "bob" (Some 900000000))
       "s3cret" ["HS256"] = Raise Expired.
Proof.
  assert (Hnonzero : 900000000 <> 0) by lia.
  destruct (token_expiry_window tag_sign sample_settings sample_now 900000000
              (sample_now + 900000000 - 1) "bob" Hnonzero) as (_ & Hbefore & _).
  destruct (token_expiry_window tag_sign sample_settings sample_now 900000000
              (sample_now + 900000000 + 1000000) "bob" Hnonzero) as (_ & _ & _ & _ & Hafter).
  split; [exact Hnonzero|]. split; [apply Hbefore; lia | apply Hafter; lia].
Defined.

(** The token of bob decodes to his name one second after it was issued. *)
Lemma issue_verify_round_trip_bob :
  exists claims,
    jwt_decode tag_sign (sample_now + 1000000)
      (_create_access_token tag_sign sample_settings sample_now "bob" (Some 900000000))
      "s3cret" ["HS256"] = Return claims
    /\ claims !! "sub" = Some (PyStr "bob").
Proof.
  apply (issue_verify_round_trip tag_sign sample_settings sample_now
           (sample_now + 1000000) "bob" (Some 900000000)).
  simpl. lia.
Defined.

(** A token for bob signed with a key the server does not hold. *)
Lemma foreign_key_rejected_forged :
  jwt_decode tag_sign sample_now
    (Compact (mkJWS "HS256" {[ "sub" := PyStr "bob" ]}
                (tag_sign "HS256" "guess" ("HS256", {[ "sub" := PyStr "bob" ]}))))
    "s3cret" ["HS256"] = Raise (InvalidSignature SignatureVerificationFailed)
  /\ fetch_token_user tag_sign sample_settings sample_now sample_db
       (Compact (mkJWS "HS256" {[ "sub" := PyStr "bob" ]}
                   (tag_sign "HS256" "guess" ("HS256", {[ "sub" := PyStr "bob" ]}))))
     = None.
Proof.
  assert (Hsig : tag_sign "HS256" "guess" ("HS256", {[ "sub" := PyStr "bob" ]})
                 <> tag_sign "HS256" (secret_key sample_settings)
                      ("HS256", {[ "sub" := PyStr "bob" ]})) by discriminate.
  destruct (foreign_key_rejected tag_sign sample_settings sample_now sample_db
              "guess" "HS256" {[ "sub" := PyStr "bob" ]} Hsig)
    as (_ & _ & Hdecode & Hfetch & _).
  split; [apply Hdecode; reflexivity | exact Hfetch].
Defined.

(** A token signed with the configured key under HS512 verifies when HS512
    is the expected algorithm, and is rejected by the provider, which
    expects HS256. *)
Lemma unexpected_algorithm_rejected_hs512 :
  jwt_decode tag_sign sample_now hs512_token "s3cret" ["HS512"]
  = Return {[ "sub" := PyStr "bob" ]}
  /\ jwt_decode tag_sign sample_now hs512_token "s3cret" ["HS256"]
     = Raise (InvalidSignature AlgNotAllowed)
  /\ fetch_token_user tag_sign sample_settings sample_now sample_db hs512_token = None.
Proof.
  assert (Halg : "HS512" <> algorithm sample_settings) by discriminate.
  destruct (unexpected_algorithm_rejected tag_sign sample_settings sample_now sample_db
              (mkJWS "HS512" {[ "sub" := PyStr "bob" ]} "HS512:s3cret") Halg)
    as (Hdecode & Hfetch & _).
  split; [reflexivity|]. split; [exact Hdecode | exact Hfetch].
Defined.

(** Bob logs in with his password. *)
Lemma login_token_subject_bob :
  exists token,
    login_for_access_token tag_sign plain_verify sample_settings sample_now sample_db
      "bob" "builder" = Return (mkToken token)
    /\ exists claims, get_unverified_claims token = Some claims
                      /\ claims !! "sub" = Some (PyStr "bob").
Proof.
  assert (Hauth : authenticate_user plain_verify sample_db "bob" "builder" = Some bob)
    by reflexivity.
  destruct (login_token_subject tag_sign plain_verify sample_settings sample_now
              sample_db "bob" "builder" bob Hauth eq_refl) as (token & Hlogin & Hsub & _).
  exists token. split; [exact Hlogin | exact Hsub].
Defined.

(** An unknown user and bob with a wrong password get the same answer. *)
Lemma login_failures_indistinguishable_bob :
  login_for_access_token tag_sign plain_verify sample_settings sample_now sample_db
    "nouser" "anything"
  = login_for_access_token tag_sign plain_verify sample_settings sample_now sample_db
      "bob" "wrongpassword".
Proof.
  assert (Hunknown : get_user_by_username sample_db "nouser" = None) by reflexivity.
  assert (Hknown : get_user_by_username sample_db "bob" = Some bob) by reflexivity.
  assert (Hwrong : plain_verify "wrongpassword" (password_hash bob) = false) by reflexivity.
  destruct (login_failures_indistinguishable tag_sign plain_verify sample_settings
              sample_now sample_db "nouser" "anything" "bob" "wrongpassword" bob
              Hunknown Hknown Hwrong) as (_ & _ & Hsame).
  exact Hsame.
Defined.

(** C8 fails as stated: a token that verifies and names no subject does not
    fail a request that also carries the API key of alice. *)
Lemma missing_subject_with_api_key_counterexample :
  jwt_decode tag_sign sample_now anonymous_token
    (secret_key sample_settings) [algorithm sample_settings] = Return ∅
  /\ (∅ : gmap string PyValue) !! "sub" = None
  /\ get_current_user tag_sign sample_settings sample_now sample_db
       (Some "key-alice") (Some anonymous_token) = Return alice.
Proof. repeat split; vm_compute; reflexivity. Qed.

(** Without the API key the same token fails the request, and so does a
    token whose subject is not in the store. *)
Lemma unauthenticated_without_identity_anonymous :
  get_current_user tag_sign sample_settings sample_now sample_db None None
  = Raise Unauthorized
  /\ get_current_user tag_sign sample_settings sample_now sample_db None
       (Some anonymous_token) = Raise Unauthorized.
Proof.
  assert (Hkey : carries_api_key None = false) by reflexivity.
  split.
  - destruct (unauthenticated_without_identity tag_sign sample_settings sample_now
                sample_db None None Hkey) as (Hnone & _).
    apply Hnone. reflexivity.
  - destruct (unauthenticated_without_identity tag_sign sample_settings sample_now
                sample_db None (Some anonymous_token) Hkey) as (_ & Hsub & _).
    apply (Hsub anonymous_token ∅); [reflexivity | reflexivity | left; reflexivity].
Defined.

(** C9 fails as stated: a ttl is provided, the zero duration, and no
    expiration is added. *)
Lemma zero_ttl_counterexample :
  to_encode sample_now "alice" (Some 0) !! "exp" = None
  /\ get_unverified_claims
       (_create_access_token tag_sign sample_settings sample_now "alice" (Some 0))
     = Some {[ "sub" := PyStr "alice" ]}.
Proof. split; vm_compute; reflexivity. Qed.

(** Login under a configuration of 0 minutes and of 15 minutes. *)
Lemma login_expiration_claim_bob :
  login_for_access_token tag_sign plain_verify no_expiry_settings sample_now sample_db
    "bob" "builder"
  = Return (mkToken (_create_access_token tag_sign no_expiry_settings sample_now "bob"
                       (Some (timedelta_minutes 0))))
  /\ int_dates (to_encode sample_now "bob" (Some (timedelta_minutes 0))) !! "exp" = None
  /\ int_dates (to_encode sample_now "bob" (Some (timedelta_minutes 15))) !! "exp"
     = Some (PyInt (timegm (sample_now + 15 * 60000000))).
Proof.
  assert (Hauth : authenticate_user plain_verify sample_db "bob" "builder" = Some bob)
    by reflexivity.
  destruct (login_expiration_claim tag_sign plain_verify no_expiry_settings sample_now
              sample_db "bob" "builder" bob Hauth eq_refl) as (Hlogin & _ & Hzero & _).
  destruct (login_expiration_claim tag_sign plain_verify sample_settings sample_now
              sample_db "bob" "builder" bob Hauth eq_refl) as (_ & _ & _ & Hpos & _).
  split; [exact Hlogin|]. split.
  - apply Hzero. reflexivity.
  - apply Hpos. reflexivity.
Defined.

(** The token of bob a day after it was issued: expired, so no user, and the
    request fails like any other. *)
Lemma rejected_token_unauthorized_expired :
  jwt_decode tag_sign (sample_now + 86400000000) bob_token "s3cret" ["HS256"]
  = Raise Expired
  /\ get_current_user tag_sign sample_settings (sample_now + 86400000000) sample_db
       None (Some bob_token) = Raise Unauthorized.
Proof.
  assert (Hkey : carries_api_key None = false) by reflexivity.
  assert (Hdecode : jwt_decode tag_sign (sample_now + 86400000000) bob_token
                      (secret_key sample_settings) [algorithm sample_settings]
                    = Raise Expired) by reflexivity.
  destruct (rejected_token_unauthorized tag_sign sample_settings
              (sample_now + 86400000000) sample_db None bob_token Expired Hkey Hdecode)
    as (_ & Hrequest).
  split; [exact Hdecode | exact Hrequest].
Defined.

(** Bob logs in and, a minute later, sends the token with an empty API key
    header. *)
Lemma login_then_authenticate_bob :
  exists token,
    login_for_access_token tag_sign plain_verify sample_settings sample_now sample_db
      "bob" "builder" = Return token
    /\ get_current_user tag_sign sample_settings (sample_now + 60000000) sample_db
         (Some EmptyString) (Some (access_token token)) = Return bob.
Proof.
  apply (login_then_authenticate tag_sign plain_verify sample_settings sample_now
           (sample_now + 60000000) sample_db "bob" "builder" bob (Some EmptyString)).
  - reflexivity.
  - reflexivity.
  - reflexivity.
  - reflexivity.
  - left. reflexivity.
Defined.

(** The user without a name logs in, and the token is of no use. *)
Lemma empty_subject_never_authenticates_nameless :
  exists token,
    login_for_access_token tag_sign plain_verify sample_settings sample_now nameless_db
      EmptyString "void" = Return token
    /\ get_current_user tag_sign sample_settings sample_now nameless_db None
         (Some (access_token token)) = Raise Unauthorized.
Proof.
  destruct (empty_subject_never_authenticates tag_sign plain_verify sample_settings
              sample_now sample_now nameless_db None None) as (_ & _ & Hlogin).
  apply (Hlogin "void" nameless); reflexivity.
Defined.

(** The token of bob, 15 minutes and one second after his login. *)
Lemma login_token_expires_bob :
  exists token,
    login_for_access_token tag_sign plain_verify sample_settings sample_now sample_db
      "bob" "builder" = Return token
    /\ get_current_user tag_sign sample_settings (sample_now + 901000000) sample_db None
         (Some (access_token token)) = Raise Unauthorized.
Proof.
  apply (login_token_expires tag_sign plain_verify sample_settings sample_now
           (sample_now + 901000000) sample_db "bob" "builder" bob None).
  - reflexivity.
  - reflexivity.
  - reflexivity.
  - discriminate.
  - discriminate.
Defined.

(** Under a configuration of -5 minutes the token of bob is rejected at the
    instant of the login. *)
Lemma negative_expiration_locks_out_bob :
  exists token,
    login_for_access_token tag_sign plain_verify negative_settings sample_now sample_db
      "bob" "builder" = Return token
    /\ get_current_user tag_sign negative_settings sample_now sample_db None
         (Some (access_token token)) = Raise Unauthorized.
Proof.
  apply (negative_expiration_locks_out tag_sign plain_verify negative_settings sample_now
           sample_now sample_db "bob" "builder" bob None).
  - reflexivity.
  - reflexivity.
  - reflexivity.
  - reflexivity.
  - discriminate.
Defined.

(** The API key of alice under two configurations, at two instants, with
    and without a token. *)
Lemma api_key_independent_of_token_settings_alice :
  get_current_user tag_sign sample_settings sample_now sample_db
    (Some "key-alice") (Some bob_token)
  = get_current_user tag_sign negative_settings 0 sample_db (Some "key-alice") None.
Proof.
  apply (api_key_independent_of_token_settings tag_sign sample_settings negative_settings
           sample_now 0 sample_db "key-alice" (Some bob_token) None).
  reflexivity.
Defined.

(** * The dataset handlers *)

(** The not-found error of [_get_dataset]. *)
Lemma _get_dataset_missing (c : DatasetsContext) (dataset_id : string) (st : State c) :
  get_dataset_by_id c st dataset_id = None ->
  _get_dataset c dataset_id st
  = (st, Raise (HTTPException 404 ("Dataset with id `" +:+ dataset_id +:+ "` not found"))).
Proof. intros Hmissing. unfold _get_dataset, hbind, query. by rewrite Hmissing. Qed.

Lemma _get_dataset_found (c : DatasetsContext) (dataset_id : string) (st : State c)
  (dataset : Dataset c) :
  get_dataset_by_id c st dataset_id = Some dataset ->
  _get_dataset c dataset_id st = (st, Return dataset).
Proof. intros Hfound. unfold _get_dataset, hbind, query. by rewrite Hfound. Qed.

Lemma authorize_allowed (c : DatasetsContext) (actor : CurrentUser c)
  (action : PolicyAction c) (st : State c) :
  is_authorized c actor action = true -> authorize c actor action st = (st, Return tt).
Proof. intros Hallowed. unfold authorize. by rewrite Hallowed. Qed.

Lemma authorize_denied (c : DatasetsContext) (actor : CurrentUser c)
  (action : PolicyAction c) (st : State c) :
  is_authorized c actor action = false ->
  authorize c actor action st = (st, Raise ForbiddenError).
Proof. intros Hdenied. unfold authorize. by rewrite Hdenied. Qed.

(** X7. The handlers that read one dataset look the dataset up before they ask
    the policy: for an id that names no dataset every one of them answers
    404 with the id in the detail, to every user, allowed or not. *)
Theorem missing_dataset_before_authorization (c : DatasetsContext)
  (dataset_id : string) (current_user : CurrentUser c)
  (include : list (RecordInclude c)) (offset limit : Z) (st : State c) :
  get_dataset_by_id c st dataset_id = None ->
  let not_found {A} : State c * Raises HandlerError A :=
    (st, Raise (HTTPException 404 ("Dataset with id `" +:+ dataset_id +:+ "` not found"))) in
  list_dataset_fields c dataset_id current_user st = not_found
  /\ list_dataset_questions c dataset_id current_user st = not_found
  /\ list_current_user_dataset_records c dataset_id include offset limit current_user st
     = not_found
  /\ get_dataset c dataset_id current_user st = not_found
  /\ get_current_user_dataset_metrics c dataset_id current_user st = not_found.
Proof.
  intros Hmissing not_found. subst not_found.
  unfold list_dataset_fields, list_dataset_questions, list_current_user_dataset_records,
    get_dataset, get_current_user_dataset_metrics, hbind.
  by rewrite !_get_dataset_missing.
Qed.

(** X8. The handlers that write ask the policy first: a user the policy denies
    the action gets [ForbiddenError] and the state is left as it was,
    whether the dataset exists or not and whatever the payload. *)
Theorem mutation_denied_first (c : DatasetsContext) (current_user : CurrentUser c)
  (dataset_id : string) (dataset_create : DatasetCreate c) (field_create : FieldCreate c)
  (question_create : QuestionCreate c) (records_create : RecordsCreate c)
  (st : State c) :
  (is_authorized c current_user (DatasetPolicyV1_create c) = false ->
   create_dataset c dataset_create current_user st = (st, Raise ForbiddenError))
  /\ (is_authorized c current_user (DatasetPolicyV1_create_field c) = false ->
      create_dataset_field c dataset_id field_create current_user st
      = (st, Raise ForbiddenError))
  /\ (is_authorized c current_user (DatasetPolicyV1_create_question c) = false ->
      create_dataset_question c dataset_id question_create current_user st
      = (st, Raise ForbiddenError))
  /\ (is_authorized c current_user (DatasetPolicyV1_create_records c) = false ->
      create_dataset_records c dataset_id records_create current_user st
      = (st, Raise ForbiddenError))
  /\ (is_authorized c current_user (DatasetPolicyV1_publish c) = false ->
      publish_dataset c dataset_id current_user st = (st, Raise ForbiddenError))
  /\ (is_authorized c current_user (DatasetPolicyV1_delete c) = false ->
      delete_dataset c dataset_id current_user st = (st, Raise ForbiddenError)).
Proof.
  unfold create_dataset, create_dataset_field, create_dataset_question,
    create_dataset_records, publish_dataset, delete_dataset, hbind.
  repeat split; intros Hdenied; by rewrite authorize_denied.
Qed.

(** X9. An allowed user who writes to a dataset that does not exist gets the
    404 of [_get_dataset], and nothing is written. *)
Theorem mutation_missing_dataset (c : DatasetsContext) (current_user : CurrentUser c)
  (dataset_id : string) (field_create : FieldCreate c)
  (question_create : QuestionCreate c) (records_create : RecordsCreate c)
  (st : State c) :
  get_dataset_by_id c st dataset_id = None ->
  let not_found {A} : State c * Raises HandlerError A :=
    (st, Raise (HTTPException 404 ("Dataset with id `" +:+ dataset_id +:+ "` not found"))) in
  (is_authorized c current_user (DatasetPolicyV1_create_field c) = true ->
   create_dataset_field c dataset_id field_create current_user st = not_found)
  /\ (is_authorized c current_user (DatasetPolicyV1_create_question c) = true ->
      create_dataset_question c dataset_id question_create current_user st = not_found)
  /\ (is_authorized c current_user (DatasetPolicyV1_create_records c) = true ->
      create_dataset_records c dataset_id records_create current_user st = not_found)
  /\ (is_authorized c current_user (DatasetPolicyV1_publish c) = true ->
      publish_dataset c dataset_id current_user st = not_found)
  /\ (is_authorized c current_user (DatasetPolicyV1_delete c) = true ->
      delete_dataset c dataset_id current_user st = not_found).
Proof.
  intros Hmissing not_found. subst not_found.
  unfold create_dataset_field, create_dataset_question, create_dataset_records,
    publish_dataset, delete_dataset, hbind.
  repeat split; intros Hallowed;
    by rewrite authorize_allowed, _get_dataset_missing.
Qed.

(** X10. A name that is taken is refused with 409 before anything is created: a
    dataset name within its workspace, a field name and a question name
    within their dataset. *)
Theorem name_conflict_refused (c : DatasetsContext) (current_user : CurrentUser c)
  (dataset_id : string) (dataset : Dataset c) (dataset_create : DatasetCreate c)
  (field_create : FieldCreate c) (question_create : QuestionCreate c) (st : State c) :
  (is_authorized c current_user (DatasetPolicyV1_create c) = true ->
   is_Some (get_dataset_by_name_and_workspace_id c st
              (dataset_create_name c dataset_create)
              (dataset_create_workspace_id c dataset_create)) ->
   create_dataset c dataset_create current_user st
   = (st, Raise (HTTPException 409
                   ("Dataset with name `" +:+ dataset_create_name c dataset_create
                    +:+ "` already exists for workspace with id `"
                    +:+ dataset_create_workspace_id c dataset_create +:+ "`"))))
  /\ (is_authorized c current_user (DatasetPolicyV1_create_field c) = true ->
      get_dataset_by_id c st dataset_id = Some dataset ->
      is_Some (get_field_by_name_and_dataset_id c st
                 (field_create_name c field_create) dataset_id) ->
      create_dataset_field c dataset_id field_create current_user st
      = (st, Raise (HTTPException 409
                      ("Field with name `" +:+ field_create_name c field_create
                       +:+ "` already exists for dataset with id `"
                       +:+ dataset_id +:+ "`"))))
  /\ (is_authorized c current_user (DatasetPolicyV1_create_question c) = true ->
      get_dataset_by_id c st dataset_id = Some dataset ->
      is_Some (get_question_by_name_and_dataset_id c st
                 (question_create_name c question_create) dataset_id) ->
      create_dataset_question c dataset_id question_create current_user st
      = (st, Raise (HTTPException 409
                      ("Question with name `" +:+ question_create_name c question_create
                       +:+ "` already exists for dataset with id `"
                       +:+ dataset_id +:+ "`")))).
Proof.
  unfold create_dataset, create_dataset_field, create_dataset_question, hbind.
  repeat split.
  - intros Hallowed [existing Hexisting].
    rewrite authorize_allowed by done. unfold query. by rewrite Hexisting.
  - intros Hallowed Hfound [existing Hexisting].
    rewrite authorize_allowed by done. rewrite (_get_dataset_found _ _ _ _ Hfound).
    unfold query. by rewrite Hexisting.
  - intros Hallowed Hfound [existing Hexisting].
    rewrite authorize_allowed by done. rewrite (_get_dataset_found _ _ _ _ Hfound).
    unfold query. by rewrite Hexisting.
Qed.

Ltac handler_cases :=
  unfold authorize, _get_dataset;
  unfold hbind, query, operation, except_ValueError, hret, hraise,
    HTTP_404_NOT_FOUND, HTTP_409_CONFLICT, HTTP_422_UNPROCESSABLE_ENTITY;
  intros; repeat case_match; simplify_eq/=; try done.

(** X11. A handler that turns a request down itself (with [ForbiddenError], 404
    or 409) has not touched the state: the operations of the context run
    only after every check has passed. *)
Theorem refusal_leaves_state (c : DatasetsContext) (current_user : CurrentUser c)
  (dataset_id : string) (dataset_create : DatasetCreate c) (field_create : FieldCreate c)
  (question_create : QuestionCreate c) (records_create : RecordsCreate c)
  (st st' : State c) (e : HandlerError) :
  is_refusal e = true ->
  (create_dataset c dataset_create current_user st = (st', Raise e) -> st' = st)
  /\ (create_dataset_field c dataset_id field_create current_user st = (st', Raise e) ->
      st' = st)
  /\ (create_dataset_question c dataset_id question_create current_user st
      = (st', Raise e) -> st' = st)
  /\ (create_dataset_records c dataset_id records_create current_user st
      = (st', Raise e) -> st' = st)
  /\ (publish_dataset c dataset_id current_user st = (st', Raise e) -> st' = st)
  /\ (delete_dataset c dataset_id current_user st = (st', Raise e) -> st' = st).
Proof.
  intros Hrefusal.
  unfold create_dataset, create_dataset_field, create_dataset_question,
    create_dataset_records, publish_dataset, delete_dataset.
  repeat split; handler_cases.
Qed.

(** X12. A [ValueError] of the context never leaves the four handlers that wrap
    their operation in [try ... except ValueError]: with the checks passed,
    it becomes a 422 whose detail is the message of the error. *)
Theorem value_error_becomes_422 (c : DatasetsContext) (current_user : CurrentUser c)
  (dataset_id : string) (field_create : FieldCreate c)
  (question_create : QuestionCreate c) (records_create : RecordsCreate c)
  (st st' : State c) (message : string) :
  create_dataset_field c dataset_id field_create current_user st
    <> (st', Raise (ValueError message))
  /\ create_dataset_question c dataset_id question_create current_user st
       <> (st', Raise (ValueError message))
  /\ create_dataset_records c dataset_id records_create current_user st
       <> (st', Raise (ValueError message))
  /\ publish_dataset c dataset_id current_user st <> (st', Raise (ValueError message))
  /\ (forall dataset,
        is_authorized c current_user (DatasetPolicyV1_create_field c) = true ->
        get_dataset_by_id c st dataset_id = Some dataset ->
        get_field_by_name_and_dataset_id c st (field_create_name c field_create) dataset_id
        = None ->
        datasets_create_field c st dataset field_create = (st', Raise message) ->
        create_dataset_field c dataset_id field_create current_user st
        = (st', Raise (HTTPException 422 message))).
Proof.
  unfold create_dataset_field, create_dataset_question, create_dataset_records,
    publish_dataset.
  split; [|split; [|split; [|split]]].
  1-4: intros Hescape; revert Hescape; handler_cases.
  intros dataset Hallowed Hfound Hfree Hraise.
  unfold hbind. rewrite authorize_allowed by done.
  rewrite (_get_dataset_found _ _ _ _ Hfound).
  unfold query, except_ValueError, operation. by rewrite Hfree, Hraise.
Qed.

(** X13. [delete_dataset] returns a dataset exactly when the policy allows the
    user to delete, the id names that dataset and the context deleted it;
    the dataset returned is the one found before the deletion, and the new
    state is the one the deletion left. *)
Theorem delete_dataset_success (c : DatasetsContext) (current_user : CurrentUser c)
  (dataset_id : string) (dataset : Dataset c) (st st' : State c) :
  delete_dataset c dataset_id current_user st = (st', Return dataset)
  <-> is_authorized c current_user (DatasetPolicyV1_delete c) = true
      /\ get_dataset_by_id c st dataset_id = Some dataset
      /\ datasets_delete_dataset c st dataset = (st', Return tt).
Proof.
  unfold delete_dataset. split.
  - handler_cases. repeat split; try done.
    by match goal with u : unit |- _ => destruct u end.
  - intros (Hallowed & Hfound & Hdeleted).
    unfold hbind. rewrite authorize_allowed by done.
    rewrite (_get_dataset_found _ _ _ _ Hfound).
    unfold operation, hret. by rewrite Hdeleted.
Qed.

(** ** Concrete requests on the sample context *)

(** The annotator asks for a dataset that does not exist. *)
Lemma missing_dataset_before_authorization_sample :
  get_dataset sample_context "ds-9" sample_annotator sample_state
  = (sample_state, Raise (HTTPException 404 "Dataset with id `ds-9` not found")).
Proof.
  assert (Hmissing : get_dataset_by_id sample_context sample_state "ds-9" = None)
    by reflexivity.
  destruct (missing_dataset_before_authorization sample_context "ds-9" sample_annotator
              [] 0 50 sample_state Hmissing) as (_ & _ & _ & Hget & _).
  exact Hget.
Defined.

(** The annotator may not delete, whether the dataset exists or not. *)
Lemma mutation_denied_first_sample :
  delete_dataset sample_context "ds-1" sample_annotator sample_state
  = (sample_state, Raise ForbiddenError)
  /\ delete_dataset sample_context "ds-9" sample_annotator sample_state
     = (sample_state, Raise ForbiddenError).
Proof.
  destruct (mutation_denied_first sample_context sample_annotator "ds-1" ("n", "w")
              "f" "q" [] sample_state) as (_ & _ & _ & _ & _ & Hexisting).
  destruct (mutation_denied_first sample_context sample_annotator "ds-9" ("n", "w")
              "f" "q" [] sample_state) as (_ & _ & _ & _ & _ & Hmissing).
  split; [apply Hexisting | apply Hmissing]; reflexivity.
Defined.

(** The admin publishes a dataset that does not exist. *)
Lemma mutation_missing_dataset_sample :
  publish_dataset sample_context "ds-9" sample_admin sample_state
  = (sample_state, Raise (HTTPException 404 "Dataset with id `ds-9` not found")).
Proof.
  assert (Hmissing : get_dataset_by_id sample_context sample_state "ds-9" = None)
    by reflexivity.
  destruct (mutation_missing_dataset sample_context sample_admin "ds-9" "f" "q" []
              sample_state Hmissing) as (_ & _ & _ & Hpublish & _).
  apply Hpublish. reflexivity.
Defined.

(** The admin creates a dataset under a name that is taken, and a field
    that the dataset already has. *)
Lemma name_conflict_refused_sample :
  create_dataset sample_context ("ds-1", "ws-1") sample_admin sample_state
  = (sample_state,
     Raise (HTTPException 409
              "Dataset with name `ds-1` already exists for workspace with id `ws-1`"))
  /\ create_dataset_field sample_context "ds-1" "text" sample_admin sample_state
     = (sample_state,
        Raise (HTTPException 409
                 "Field with name `text` already exists for dataset with id `ds-1`")).
Proof.
  destruct (name_conflict_refused sample_context sample_admin "ds-1" "ds-1"
              ("ds-1", "ws-1") "text" "label" sample_state)
    as (Hdataset & Hfield & _).
  split.
  - apply Hdataset; [reflexivity | by eexists].
  - apply Hfield; [reflexivity | reflexivity | by eexists].
Defined.

(** The refused deletion of the annotator leaves the two datasets. *)
Lemma refusal_leaves_state_sample :
  fst (delete_dataset sample_context "ds-1" sample_annotator sample_state)
  = sample_state.
Proof.
  assert (Hrefusal : is_refusal ForbiddenError = true) by reflexivity.
  destruct (refusal_leaves_state sample_context sample_annotator "ds-1" ("n", "w")
              "f" "q" []  sample_state
              (fst (delete_dataset sample_context "ds-1" sample_annotator sample_state))
              ForbiddenError Hrefusal) as (_ & _ & _ & _ & _ & Hdelete).
  apply Hdelete. reflexivity.
Defined.

(** The admin creates a field without a name: the context refuses it, and
    the handler answers 422 with the message. *)
Lemma value_error_becomes_422_sample :
  create_dataset_field sample_context "ds-1" EmptyString sample_admin sample_state
  = (sample_state, Raise (HTTPException 422 "the name is empty")).
Proof.
  destruct (value_error_becomes_422 sample_context sample_admin "ds-1" EmptyString
              "q" [] sample_state sample_state "the name is empty")
    as (_ & _ & _ & _ & Hmapped).
  apply (Hmapped "ds-1"); reflexivity.
Defined.

(** The admin deletes the first dataset. *)
Lemma delete_dataset_success_sample :
  delete_dataset sample_context "ds-1" sample_admin sample_state
  = (["ds-2"], Return "ds-1").
Proof.
  apply (delete_dataset_success sample_context sample_admin "ds-1" "ds-1"
           sample_state ["ds-2"]).
  repeat split; reflexivity.
Defined.

(** ** Tokens signed with another key *)



